(** * combo_app.py: a Streamlit form driving a two-agent CrewAI workflow

    A shallow embedding of [combo_app.py].  The script has four steps:
    module initialisation (environment, tracing), the Weaviate search
    tool, the agent and task definitions, and the Streamlit page.

    The third-party libraries (weaviate, crewai, streamlit, opik) are not
    part of the script.  Their calls are modelled as oracles: records of
    functions that, given the arguments of the call, either return a
    value or raise an exception.  Every call the script makes is logged
    in a trace, so that statements about which calls happen, in which
    order and with which arguments, are statements about a list of
    events. *)

From stdpp Require Import base option list strings gmap.
From Stdlib Require Import ZArith Ascii.

(** ** Python strings

    A [str] is modelled by the bytes of its UTF-8 encoding; concatenation,
    prefixes and splitting at ["\n"] commute with that encoding. *)

Definition LF : string := String (ascii_of_nat 10) EmptyString.

(** [sep.join(parts)] *)
Definition join (sep : string) (parts : list string) : string :=
  String.concat sep parts.

(** [s.split("\n")]: the segments of [s] between line feeds.  As in
    Python the result is never empty: [("").split("\n") = [""]]. *)
Fixpoint split_lines (s : string) : list string :=
  match s with
  | EmptyString => [EmptyString]
  | String c rest =>
      if Ascii.eqb c (ascii_of_nat 10) then EmptyString :: split_lines rest
      else match split_lines rest with
           | [] => [String c EmptyString]
           | line :: more => String c line :: more
           end
  end.

(** ["\n" not in s] *)
Fixpoint no_newline (s : string) : bool :=
  match s with
  | EmptyString => true
  | String c rest => negb (Ascii.eqb c (ascii_of_nat 10)) && no_newline rest
  end.

(** [s.startswith(p)] *)
Fixpoint startswith (s p : string) {struct p} : bool :=
  match p, s with
  | EmptyString, _ => true
  | String _ _, EmptyString => false
  | String a p', String b s' => Ascii.eqb a b && startswith s' p'
  end.

(** Truth value of a [str]: only the empty string is falsy. *)
Definition str_truthy (s : string) : bool :=
  match s with EmptyString => false | _ => true end.

(** ** Exceptions

    [except Exception] catches the instances of [Exception] and lets the
    other instances of [BaseException] (KeyboardInterrupt, SystemExit,
    GeneratorExit, ...) through; [exc_str] is [str(e)], what an f-string
    prints for [{e}]. *)

Record BaseException := {
  exc_class : string;
  is_Exception : bool;
  exc_str : string;
}.

(** [KeyError(key)] for a key that [repr] prints between single quotes. *)
Definition KeyError (key : string) : BaseException :=
  {| exc_class := "KeyError"; is_Exception := true;
     exc_str := "'" +:+ key +:+ "'" |}.

Definition IndexError (msg : string) : BaseException :=
  {| exc_class := "IndexError"; is_Exception := true; exc_str := msg |}.

Inductive outcome (A : Type) :=
| Returned (a : A)
| Raised (e : BaseException).
Arguments Returned {A} a.
Arguments Raised {A} e.

(** ** Data model: tool, agents, tasks, crew

    The crewai classes are used as keyword-argument records.  A keyword
    that the script does not pass is [None] here. *)

(** An instance of [CustomWeaviateTool]: the three class attributes. *)
Record BaseTool := {
  tool_name : string;
  tool_description : string;
  args_schema : string;
}.

Record Agent := {
  role : string;
  goal : string;
  backstory : string;
  tools : option (list BaseTool);
  agent_verbose : bool;
  model : string;
}.

Record TaskOutput := { task_raw : string }.

(** [output] is not a constructor argument: it is the attribute the
    engine fills in and that the page reads back after [kickoff]. *)
Record Task := {
  task_name : string;
  description : string;
  expected_output : string;
  agent : Agent;
  output : option TaskOutput;
}.

Inductive Process := sequential | hierarchical.

Record Crew := {
  agents : list Agent;
  tasks : list Task;
  process : Process;
  crew_verbose : bool;
}.

Record CrewOutput := { crew_raw : string }.

(** ** Weaviate objects *)

Record Object := { properties : gmap string string }.

Record QueryReturn := { objects : list Object }.

Inductive Auth := Auth_api_key (key : option string).

(** ** Events: the calls the script makes into its libraries *)

Inductive markdown_body :=
| md_str (s : string)
| md_task_output (o : option TaskOutput)
| md_crew_output (r : CrewOutput).

Inductive event :=
| load_dotenv_ev
| getenv_ev (name : string)
| opik_configure_ev (use_local : bool) (api_key : option string)
| OpenAI_ev
| track_openai_ev
| track_crewai_ev (project_name : string)
| connect_to_weaviate_cloud_ev (cluster_url : option string)
    (auth_credentials : Auth) (headers : gmap string (option string))
| collections_get_ev (name : string)
| near_text_ev (query : string) (limit : Z)
| set_page_config_ev (page_title layout : string)
| title_ev (body : string)
| text_input_ev (label : string)
| button_ev (label : string)
| info_ev (body : string)
| success_ev (body : string)
| markdown_ev (body : markdown_body)
| error_ev (body : string)
| kickoff_ev (crew : Crew).

(** ** The monad of script fragments

    The state is the process environment ([os.environ]) and the trace of
    calls made so far, oldest first. *)

Record World := {
  environ : gmap string string;
  trace : list event;
}.

Definition Py (A : Type) : Type := World → outcome A * World.

#[global] Instance Py_ret : MRet Py := λ A a w, (Returned a, w).

#[global] Instance Py_bind : MBind Py := λ A B f m w,
  match m w with
  | (Returned a, w') => f a w'
  | (Raised e, w') => (Raised e, w')
  end.

Definition raise {A} (e : BaseException) : Py A := λ w, (Raised e, w).

Definition emit (ev : event) : Py unit := λ w,
  (Returned (), {| environ := environ w; trace := trace w ++ [ev] |}).

(** A library call: logged with its arguments, then it returns or raises
    as the library decides. *)
Definition call {A} (ev : event) (r : outcome A) : Py A := λ w,
  (r, {| environ := environ w; trace := trace w ++ [ev] |}).

(** [try: body  except Exception as e: handler(e)] *)
Definition try_except_Exception {A} (body : Py A)
    (handler : BaseException → Py A) : Py A := λ w,
  match body w with
  | (Returned a, w') => (Returned a, w')
  | (Raised e, w') =>
      if is_Exception e then handler e w' else (Raised e, w')
  end.

(** [os.getenv(name)] *)
Definition os_getenv (name : string) : Py (option string) := λ w,
  (Returned (environ w !! name),
   {| environ := environ w; trace := trace w ++ [getenv_ev name] |}).

(** [load_dotenv()]: the variables of the .env file are added to the
    environment; a variable that is already set keeps its value. *)
Definition load_dotenv (dotenv : gmap string string) : Py unit := λ w,
  (Returned (),
   {| environ := environ w ∪ dotenv; trace := trace w ++ [load_dotenv_ev] |}).

(** [d[key]] on a dict *)
Definition dict_getitem (d : gmap string string) (key : string) : Py string :=
  match d !! key with
  | Some v => mret v
  | None => raise (KeyError key)
  end.

(** [l[i]] on a list, for [i >= 0] *)
Definition list_getitem {A} (l : list A) (i : nat) : Py A :=
  match l !! i with
  | Some x => mret x
  | None => raise (IndexError "list index out of range")
  end.

(** The events a fragment adds to the trace when run from [w]. *)
Definition events_of {A} (m : Py A) (w : World) : list event :=
  drop (length (trace w)) (trace (m w).2).

(** ** STEP 1: module initialisation (lines 17-23) *)

(** What [OpenAI()] raises when it finds no key. *)
Definition OpenAIError : BaseException :=
  {| exc_class := "OpenAIError"; is_Exception := true;
     exc_str := "The api_key client option must be set either by passing api_key to the client or by setting the OPENAI_API_KEY environment variable" |}.

(** [OpenAI()] (line 22): the constructor is given no key, so it looks
    OPENAI_API_KEY up in the environment, and raises when the variable
    is not set. *)
Definition OpenAI_new : Py unit :=
  emit OpenAI_ev;;
  api_key ← os_getenv "OPENAI_API_KEY";
  match api_key with
  | Some _ => mret ()
  | None => raise OpenAIError
  end.

(** Nothing here is inside a [try]: when [OpenAI()] raises, the script
    stops there. *)
Definition module_init (dotenv : gmap string string) : Py unit :=
  load_dotenv dotenv;;
  api_key ← os_getenv "OPIK_API_KEY";
  emit (opik_configure_ev false api_key);;
  OpenAI_new;;
  emit track_openai_ev;;
  emit (track_crewai_ev "Interactive-Workshop").

(** ** STEP 2: the Weaviate tool (lines 31-64) *)

(** The weaviate client library, as seen from [_run]. *)
Record Weaviate := {
  WeaviateClient : Type;
  Collection : Type;
  connect_to_weaviate_cloud :
    option string → Auth → gmap string (option string) → outcome WeaviateClient;
  collections_get : WeaviateClient → string → outcome Collection;
  near_text : Collection → string → Z → outcome QueryReturn;
}.

Module CustomWeaviateTool.

Definition name : string := "Weaviate Book Search Tool".

Definition description : string :=
  "Searches Weaviate for relevant books related to a given topic.".

Definition new : BaseTool :=
  {| tool_name := name; tool_description := description;
     args_schema := "WeaviateSearchInput" |}.

(** The f-string of line 61. *)
Definition format_title (title : string) : string := "📘 " +:+ title.

(** One item of the generator of line 61: [obj.properties['title']] is
    looked up and formatted. *)
Definition format_object (obj : Object) : Py string :=
  title ← dict_getitem (properties obj) "title";
  mret (format_title title).

(** The generator of line 61, consumed by [join]: the titles are looked
    up in order and the first missing one raises. *)
Definition format_objects (objs : list Object) : Py (list string) :=
  mapM format_object objs.

(** [_run(self, topic)].  The decorator [opik.track] records the call and
    hands back what the function returns. *)
Definition _run (wv : Weaviate) (topic : string) : Py string :=
  try_except_Exception
    (cluster_url ← os_getenv "WEAVIATE_CLUSTER_URL";
     weaviate_api_key ← os_getenv "WEAVIATE_API_KEY";
     let auth_credentials := Auth_api_key weaviate_api_key in
     openai_api_key ← os_getenv "OPENAI_API_KEY";
     let headers : gmap string (option string) :=
       {[ "X-OpenAI-Api-Key" := openai_api_key ]} in
     client ← call (connect_to_weaviate_cloud_ev cluster_url auth_credentials headers)
                   (connect_to_weaviate_cloud wv cluster_url auth_credentials headers);
     collection ← call (collections_get_ev "Book")
                       (collections_get wv client "Book");
     results ← call (near_text_ev topic 3) (near_text wv collection topic 3);
     match objects results with
     | [] => mret "No books found in Weaviate."
     | _ :: _ =>
         lines ← format_objects (objects results);
         mret (join LF lines)
     end)
    (λ e, mret ("❌ Error querying Weaviate: " +:+ exc_str e)).

End CustomWeaviateTool.

(** ** STEP 3: agents and tasks (lines 71-133) *)

Module WorkshopAgentsAndTasks.

Record t := {
  user_query : string;
  weaviate_tool : BaseTool;
  data_analyst_agent : Agent;
  resource_recommender_agent : Agent;
}.

(** The two agent constructors run inside [__init__], on a [self] that
    is only partly filled in; each takes the attribute of [self] that
    it reads. *)
Definition create_data_analyst_agent (self_user_query : string) : Agent :=
  {| role := "Data Analyst";
     goal := "Generate insights and trends about '" +:+ self_user_query +:+ "'.";
     backstory := "An experienced data professional skilled in extracting meaning from complex datasets and market data.";
     tools := None;
     agent_verbose := true;
     model := "o3-mini" |}.

Definition create_resource_recommender_agent (self_weaviate_tool : BaseTool) : Agent :=
  {| role := "Resource Recommender";
     goal := "Provide relevant books and resources based on semantic search.";
     backstory := "An expert in research and knowledge systems, skilled at surfacing valuable content using tools like Weaviate.";
     tools := Some [self_weaviate_tool];
     agent_verbose := true;
     model := "o3-mini" |}.

Definition __init__ (user_query : string) : t :=
  let weaviate_tool := CustomWeaviateTool.new in
  {| user_query := user_query;
     weaviate_tool := weaviate_tool;
     data_analyst_agent := create_data_analyst_agent user_query;
     resource_recommender_agent := create_resource_recommender_agent weaviate_tool |}.

Definition create_data_analysis_task (self : t) : Task :=
  {| task_name := "Trend Analysis";
     description := "Analyze key patterns and trends related to '" +:+ user_query self
       +:+ "' using your knowledge and reasoning abilities.";
     expected_output := "A structured summary with 2-3 key insights or trends.";
     agent := data_analyst_agent self;
     output := None |}.

Definition create_resource_recommendation_task (self : t) : Task :=
  {| task_name := "Book Finder Task";
     description :=
       ("Use only the Weaviate tool to find high-quality books or articles about '"
          +:+ user_query self +:+ "'. ")
       +:+ "You must base your answer strictly on the output returned by the tool and do not use external knowledge or suggestions. "
       +:+ "If the tool does not return any relevant results, say so.";
     expected_output :=
       "A list of up to 3 recommended books or resources returned from Weaviate, each with a short explanation. "
       +:+ "Do not fabricate or include items not returned by the tool.";
     agent := resource_recommender_agent self;
     output := None |}.

Definition create_workshop_crew (self : t) : Crew :=
  {| agents := [data_analyst_agent self; resource_recommender_agent self];
     tasks := [create_data_analysis_task self; create_resource_recommendation_task self];
     process := sequential;
     crew_verbose := true |}.

End WorkshopAgentsAndTasks.

(** ** STEP 4: the Streamlit page (lines 141-167) *)

(** The widgets: what the visitor typed and whether the button was
    pressed in this run of the script. *)
Record Streamlit := {
  text_input : string → string;
  button : string → bool;
}.

(** [crew.kickoff()]: the engine returns the final output or raises, and
    in both cases leaves the crew object in a new state (task outputs
    filled in as far as the run went); the second component is that
    state. *)
Record Engine := {
  kickoff : Crew → outcome CrewOutput * Crew;
}.

(** The module-level names the page binds. *)
Record Globals := {
  g_user_query : string;
  g_workshop : option WorkshopAgentsAndTasks.t;
  g_crew : option Crew;
  g_result : option CrewOutput;
}.

(** [crew.kickoff()]: the call is logged with the crew it is made on. *)
Definition crew_kickoff (engine : Engine) (crew : Crew) : Py CrewOutput :=
  call (kickoff_ev crew) (kickoff engine crew).1.

(** The labels of the two widgets (lines 145 and 148). *)
Definition text_input_label : string :=
  "Enter a topic or query you'd like analyzed and researched:".

Definition button_label : string := "Run Analysis".

(** [st.text_input(label)] and [st.button(label)] *)
Definition st_text_input (st : Streamlit) (label : string) : Py string :=
  call (text_input_ev label) (Returned (text_input st label)).

Definition st_button (st : Streamlit) (label : string) : Py bool :=
  call (button_ev label) (Returned (button st label)).

Definition streamlit_ui (st : Streamlit) (engine : Engine) : Py Globals :=
  emit (set_page_config_ev "CrewAI + Weaviate" "centered");;
  emit (title_ev "🧠 CrewAI + Weaviate + Comet");;
  user_query ← st_text_input st text_input_label;
  clicked ← st_button st button_label;
  if clicked && str_truthy user_query then
    emit (info_ev "Running CrewAI Workflow... Please wait ⏳");;
    let workshop := WorkshopAgentsAndTasks.__init__ user_query in
    let crew := WorkshopAgentsAndTasks.create_workshop_crew workshop in
    (* the object [crew] as [kickoff] leaves it *)
    let crew_after := (kickoff engine crew).2 in
    try_except_Exception
      (result ← crew_kickoff engine crew;
       emit (success_ev "✅ Workflow completed successfully!");;
       emit (markdown_ev (md_str "### 📊 Data Analyst Output"));;
       task0 ← list_getitem (tasks crew_after) 0;
       emit (markdown_ev (md_task_output (output task0)));;
       emit (markdown_ev (md_str "### 📚 Resource Recommender Output"));;
       emit (markdown_ev (md_crew_output result));;
       mret {| g_user_query := user_query; g_workshop := Some workshop;
               g_crew := Some crew_after; g_result := Some result |})
      (λ e,
       emit (error_ev ("❌ Something went wrong: " +:+ exc_str e));;
       (* [result] is bound when line 155 completed before [e] was raised *)
       mret {| g_user_query := user_query; g_workshop := Some workshop;
               g_crew := Some crew_after;
               g_result := match (kickoff engine crew).1 with
                           | Returned result => Some result
                           | Raised _ => None
                           end |})
  else
    mret {| g_user_query := user_query; g_workshop := None;
            g_crew := None; g_result := None |}.

(** * Vocabulary of the properties *)

(** What the three library calls of lines 47-55 answer when [_run] is
    called with [topic] in world [w]: the connection is opened with the
    credentials found in the environment of [w], then the collection is
    fetched, then the query is sent. *)
Definition backend_response (wv : Weaviate) (topic : string) (w : World)
    : outcome QueryReturn :=
  match connect_to_weaviate_cloud wv (environ w !! "WEAVIATE_CLUSTER_URL")
          (Auth_api_key (environ w !! "WEAVIATE_API_KEY"))
          {[ "X-OpenAI-Api-Key" := environ w !! "OPENAI_API_KEY" ]} with
  | Raised e => Raised e
  | Returned client =>
      match collections_get wv client "Book" with
      | Raised e => Raised e
      | Returned collection => near_text wv collection topic 3
      end
  end.

(** The titles of a result list, when every object has one. *)
Definition titles_of (objs : list Object) : option (list string) :=
  mapM (λ obj, properties obj !! "title") objs.

(** Some object of the list has no ['title'] property. *)
Definition lacks_title (objs : list Object) : Prop :=
  Exists (λ obj, properties obj !! "title" = None) objs.

(** The calls [_run] makes, in order: three environment reads, the
    connection, and then as far as the backend lets it go. *)
Definition run_calls (wv : Weaviate) (topic : string) (w : World) : list event :=
  let cluster_url := environ w !! "WEAVIATE_CLUSTER_URL" in
  let auth_credentials := Auth_api_key (environ w !! "WEAVIATE_API_KEY") in
  let headers : gmap string (option string) :=
    {[ "X-OpenAI-Api-Key" := environ w !! "OPENAI_API_KEY" ]} in
  [getenv_ev "WEAVIATE_CLUSTER_URL"; getenv_ev "WEAVIATE_API_KEY";
   getenv_ev "OPENAI_API_KEY";
   connect_to_weaviate_cloud_ev cluster_url auth_credentials headers]
  ++ match connect_to_weaviate_cloud wv cluster_url auth_credentials headers with
     | Raised _ => []
     | Returned client =>
         collections_get_ev "Book"
         :: match collections_get wv client "Book" with
            | Raised _ => []
            | Returned _ => [near_text_ev topic 3]
            end
     end.

(** The backend answers queries with the first [limit] entries of the
    ranked list [matches]. *)
Definition honours_limit (wv : Weaviate) (topic : string) (w : World)
    (matches : list Object) : Prop :=
  ∃ client collection,
    connect_to_weaviate_cloud wv (environ w !! "WEAVIATE_CLUSTER_URL")
      (Auth_api_key (environ w !! "WEAVIATE_API_KEY"))
      {[ "X-OpenAI-Api-Key" := environ w !! "OPENAI_API_KEY" ]} = Returned client
    ∧ collections_get wv client "Book" = Returned collection
    ∧ ∀ limit, near_text wv collection topic limit
               = Returned {| objects := take (Z.to_nat limit) matches |}.

(** What the script submits: the text of the input box and the crew it
    builds from it. *)
Definition submitted_query (st : Streamlit) : string :=
  text_input st text_input_label.

Definition submitted_crew (st : Streamlit) : Crew :=
  WorkshopAgentsAndTasks.create_workshop_crew
    (WorkshopAgentsAndTasks.__init__ (submitted_query st)).

(** The guard of line 148. *)
Definition submit_guard (st : Streamlit) : bool :=
  button st button_label && str_truthy (submitted_query st).

(** The four calls every run of the page starts with. *)
Definition ui_prelude : list event :=
  [set_page_config_ev "CrewAI + Weaviate" "centered";
   title_ev "🧠 CrewAI + Weaviate + Comet";
   text_input_ev text_input_label;
   button_ev button_label].

(** The calls of a run of the page, in order. *)
Definition ui_calls (st : Streamlit) (engine : Engine) : list event :=
  ui_prelude ++
  if submit_guard st then
    [info_ev "Running CrewAI Workflow... Please wait ⏳";
     kickoff_ev (submitted_crew st)]
    ++ match kickoff engine (submitted_crew st) with
       | (Raised e, _) =>
           if is_Exception e
           then [error_ev ("❌ Something went wrong: " +:+ exc_str e)]
           else []
       | (Returned result, crew_after) =>
           [success_ev "✅ Workflow completed successfully!";
            markdown_ev (md_str "### 📊 Data Analyst Output")]
           ++ match tasks crew_after !! 0 with
              | Some task0 =>
                  [markdown_ev (md_task_output (output task0));
                   markdown_ev (md_str "### 📚 Resource Recommender Output");
                   markdown_ev (md_crew_output result)]
              | None =>
                  [error_ev "❌ Something went wrong: list index out of range"]
              end
       end
  else [].

(** The crews handed to the engine, the error banners and the markdown
    sections of a trace. *)
Definition kickoffs (evs : list event) : list Crew :=
  omap (λ ev, match ev with kickoff_ev crew => Some crew | _ => None end) evs.

Definition error_banners (evs : list event) : list string :=
  omap (λ ev, match ev with error_ev body => Some body | _ => None end) evs.

Definition markdown_sections (evs : list event) : list markdown_body :=
  omap (λ ev, match ev with markdown_ev body => Some body | _ => None end) evs.

(** The variables the spec lists as required. *)
Definition required_environment : list string :=
  ["OPIK_API_KEY"; "OPENAI_API_KEY"; "WEAVIATE_CLUSTER_URL"; "WEAVIATE_API_KEY"].

(** The variables looked up in the environment in a trace, in order. *)
Definition env_reads (evs : list event) : list string :=
  omap (λ ev, match ev with getenv_ev name => Some name | _ => None end) evs.

(** The answer to the connection call of lines 47-51 in world [w]. *)
Definition backend_connect (wv : Weaviate) (w : World)
    : outcome (WeaviateClient wv) :=
  connect_to_weaviate_cloud wv (environ w !! "WEAVIATE_CLUSTER_URL")
    (Auth_api_key (environ w !! "WEAVIATE_API_KEY"))
    {[ "X-OpenAI-Api-Key" := environ w !! "OPENAI_API_KEY" ]}.

(** The connections opened and the queries sent in a trace, in order. *)
Definition connections (evs : list event)
    : list (option string * Auth * gmap string (option string)) :=
  omap (λ ev, match ev with
              | connect_to_weaviate_cloud_ev url auth headers =>
                  Some (url, auth, headers)
              | _ => None
              end) evs.

Definition queries (evs : list event) : list (string * Z) :=
  omap (λ ev, match ev with
              | near_text_ev query limit => Some (query, limit)
              | _ => None
              end) evs.

(** The variables [_run] looks up. *)
Definition adapter_environment : list string :=
  ["WEAVIATE_CLUSTER_URL"; "WEAVIATE_API_KEY"; "OPENAI_API_KEY"].

(** The tool called twice in a row, as an agent may do while it reasons. *)
Definition run_twice (wv : Weaviate) (topic1 topic2 : string)
    : Py (string * string) :=
  out1 ← CustomWeaviateTool._run wv topic1;
  out2 ← CustomWeaviateTool._run wv topic2;
  mret (out1, out2).


(** The markdown sections of a trace that show a final result. *)
Definition result_sections (evs : list event) : list CrewOutput :=
  omap (λ ev, match ev with
              | markdown_ev (md_crew_output result) => Some result
              | _ => None
              end) evs.

(** The success messages of a trace. *)
Definition success_messages (evs : list event) : list string :=
  omap (λ ev, match ev with success_ev body => Some body | _ => None end) evs.

(** * Sample backends, widgets and engines *)

(** A process whose environment holds the three variables [_run] reads. *)
Definition sample_world : World :=
  {| environ := {[ "WEAVIATE_CLUSTER_URL" := "https://books.weaviate.cloud";
                   "WEAVIATE_API_KEY" := "wv-key";
                   "OPENAI_API_KEY" := "sk-key" ]};
     trace := [] |}.

Definition book (title : string) : Object :=
  {| properties := {[ "title" := title ]} |}.

(** A backend that holds the ranked list [matches] for every topic and
    answers a query with its first [limit] entries. *)
Definition ranked_backend (matches : list Object) : Weaviate :=
  {| WeaviateClient := unit; Collection := string;
     connect_to_weaviate_cloud := λ _ _ _, Returned ();
     collections_get := λ _ name, Returned name;
     near_text := λ _ _ limit,
       Returned {| objects := take (Z.to_nat limit) matches |} |}.

(** A backend whose query fails with [e]. *)
Definition failing_backend (e : BaseException) : Weaviate :=
  {| WeaviateClient := unit; Collection := string;
     connect_to_weaviate_cloud := λ _ _ _, Returned ();
     collections_get := λ _ name, Returned name;
     near_text := λ _ _ _, Raised e |}.

Definition timeout_error : BaseException :=
  {| exc_class := "WeaviateTimeoutError"; is_Exception := true;
     exc_str := "The request to Weaviate timed out" |}.

(** An object without a ['title'] property. *)
Definition untitled : Object :=
  {| properties := {[ "author" := "Frank Herbert" ]} |}.

(** A title that spans two lines. *)
Definition two_line_title : string := "War" +:+ LF +:+ "and Peace".

Definition five_books : list Object :=
  [book "Book A"; book "Book B"; book "Book C"; book "Book D"; book "Book E"].

(** The visitor typed [query] and pressed the button, or not. *)
Definition typed (query : string) (clicked : bool) : Streamlit :=
  {| text_input := λ _, query; button := λ _, clicked |}.

Definition provider_error : BaseException :=
  {| exc_class := "RateLimitError"; is_Exception := true;
     exc_str := "Rate limit reached for o3-mini" |}.

(** An engine that completes the first task and then fails with [e]. *)
Definition failing_engine (e : BaseException) : Engine :=
  {| kickoff := λ crew,
       (Raised e,
        {| agents := agents crew;
           tasks := match tasks crew with
                    | task0 :: rest =>
                        {| task_name := task_name task0;
                           description := description task0;
                           expected_output := expected_output task0;
                           agent := agent task0;
                           output := Some {| task_raw := "Three trends." |} |}
                        :: rest
                    | [] => []
                    end;
           process := process crew;
           crew_verbose := crew_verbose crew |}) |}.

(** A process started with an empty environment, and its .env file. *)
Definition blank_world : World := {| environ := ∅; trace := [] |}.

Definition sample_dotenv : gmap string string :=
  {[ "OPIK_API_KEY" := "opik-key";
     "OPENAI_API_KEY" := "sk-key";
     "WEAVIATE_CLUSTER_URL" := "https://books.weaviate.cloud";
     "WEAVIATE_API_KEY" := "wv-key" ]}.

(** A signal that is not an instance of [Exception]. *)
Definition keyboard_interrupt : BaseException :=
  {| exc_class := "KeyboardInterrupt"; is_Exception := false; exc_str := "" |}.

(** A backend that cannot be reached: the connection fails with [e]. *)
Definition unreachable_backend (e : BaseException) : Weaviate :=
  {| WeaviateClient := unit; Collection := string;
     connect_to_weaviate_cloud := λ _ _ _, Raised e;
     collections_get := λ _ name, Returned name;
     near_text := λ _ _ _, Returned {| objects := [] |} |}.

(** A backend on which the collection cannot be fetched. *)
Definition collectionless_backend (e : BaseException) : Weaviate :=
  {| WeaviateClient := unit; Collection := string;
     connect_to_weaviate_cloud := λ _ _ _, Returned ();
     collections_get := λ _ _, Raised e;
     near_text := λ _ _ _, Returned {| objects := [] |} |}.

(** [task] once the engine has stored [raw] as its output. *)
Definition with_output (raw : string) (task : Task) : Task :=
  {| task_name := task_name task; description := description task;
     expected_output := expected_output task; agent := agent task;
     output := Some {| task_raw := raw |} |}.

(** An engine that completes every task and returns [final]. *)
Definition answering_engine (final : string) : Engine :=
  {| kickoff := λ crew,
       (Returned {| crew_raw := final |},
        {| agents := agents crew;
           tasks := with_output "Three trends." <$> tasks crew;
           process := process crew;
           crew_verbose := crew_verbose crew |}) |}.

(** An engine that returns [final] and leaves the crew without tasks. *)
Definition emptying_engine (final : string) : Engine :=
  {| kickoff := λ crew,
       (Returned {| crew_raw := final |},
        {| agents := agents crew; tasks := [];
           process := process crew; crew_verbose := crew_verbose crew |}) |}.

(** * Properties *)

Ltac py_unfold :=
  unfold CustomWeaviateTool._run, try_except_Exception, call, os_getenv, emit,
    raise, mbind, Py_bind, mret, Py_ret in *; cbn [environ trace fst snd] in *.

(** Membership of an event in an explicit list of events, by cases. *)
Ltac in_events H :=
  repeat match type of H with
  | _ ∈ _ ++ _ => apply elem_of_app in H as [H|H]
  | _ ∈ _ :: _ => apply elem_of_cons in H as [H|H]
  | _ ∈ [] => by apply elem_of_nil in H
  | _ = _ => discriminate H
  end.

(** An explicit list of events written as [before ++ ev :: after]: the
    positions of [ev] are tried one by one; those where the list holds
    another event are closed. *)
Ltac split_trace H before :=
  repeat (destruct before as [|? before];
          [ try discriminate H
          | cbn in H; injection H as <- H ]);
  try (destruct before; discriminate H).

Ltac ui_unfold :=
  unfold streamlit_ui, st_text_input, st_button, crew_kickoff, list_getitem,
    try_except_Exception, call, emit, raise, mbind, Py_bind, mret, Py_ret in *;
  cbn [environ trace fst snd] in *.

(** ** What [_run] returns and which calls it makes *)

Lemma Py_mapM_cons {A B} (f : A → Py B) (x : A) (l : list A) (w : World) :
  mapM f (x :: l) w =
  match f x w with
  | (Returned y, w') =>
      match mapM f l w' with
      | (Returned k, w'') => (Returned (y :: k), w'')
      | (Raised e, w'') => (Raised e, w'')
      end
  | (Raised e, w') => (Raised e, w')
  end.
Proof.
  cbn [mapM]. unfold mbind, Py_bind, mret, Py_ret.
  destruct (f x w) as [[y|e] w']; [|reflexivity].
  destruct (mapM f l w') as [[k|e] w'']; reflexivity.
Qed.

Lemma format_object_title (obj : Object) (title : string) (w : World) :
  properties obj !! "title" = Some title →
  CustomWeaviateTool.format_object obj w
  = (Returned (CustomWeaviateTool.format_title title), w).
Proof.
  intros H. unfold CustomWeaviateTool.format_object, dict_getitem.
  rewrite H. reflexivity.
Qed.

Lemma format_object_missing (obj : Object) (w : World) :
  properties obj !! "title" = None →
  CustomWeaviateTool.format_object obj w = (Raised (KeyError "title"), w).
Proof.
  intros H. unfold CustomWeaviateTool.format_object, dict_getitem.
  rewrite H. reflexivity.
Qed.

Lemma titles_of_cons (obj : Object) (objs : list Object) :
  titles_of (obj :: objs) =
  match properties obj !! "title", titles_of objs with
  | Some title, Some rest => Some (title :: rest)
  | _, _ => None
  end.
Proof.
  unfold titles_of. cbn [mapM].
  destruct (properties obj !! "title"); [|reflexivity].
  cbn. destruct (mapM _ objs); reflexivity.
Qed.

Lemma format_objects_titles (objs : list Object) (titles : list string) (w : World) :
  titles_of objs = Some titles →
  CustomWeaviateTool.format_objects objs w
  = (Returned (map CustomWeaviateTool.format_title titles), w).
Proof.
  unfold CustomWeaviateTool.format_objects.
  revert titles. induction objs as [|obj objs IH]; intros titles H.
  - injection H as <-. reflexivity.
  - rewrite titles_of_cons in H.
    destruct (properties obj !! "title") as [title|] eqn:Ht; [|done].
    destruct (titles_of objs) as [rest|]; [|done].
    injection H as <-.
    rewrite Py_mapM_cons, (format_object_title _ _ _ Ht), (IH rest eq_refl).
    reflexivity.
Qed.

Lemma titles_of_None (objs : list Object) :
  titles_of objs = None ↔ lacks_title objs.
Proof.
  unfold lacks_title. induction objs as [|obj objs IH].
  - split; [done|]. intros H. inversion H.
  - rewrite titles_of_cons, Exists_cons, <- IH.
    destruct (properties obj !! "title"), (titles_of objs);
      split; intros H; try done; try (by left); try (by right);
      destruct H as [H|H]; done.
Qed.

Lemma format_objects_missing (objs : list Object) (w : World) :
  lacks_title objs →
  CustomWeaviateTool.format_objects objs w = (Raised (KeyError "title"), w).
Proof.
  unfold lacks_title, CustomWeaviateTool.format_objects.
  induction 1 as [obj objs Hnone | obj objs Hex IH]; rewrite Py_mapM_cons.
  - by rewrite (format_object_missing _ _ Hnone).
  - destruct (properties obj !! "title") as [title|] eqn:Ht.
    + by rewrite (format_object_title _ _ _ Ht), IH.
    + by rewrite (format_object_missing _ _ Ht).
Qed.

(** The value [_run] hands back, by cases on the backend's answer. *)
Lemma run_result (wv : Weaviate) (topic : string) (w : World) :
  (CustomWeaviateTool._run wv topic w).1 =
  match backend_response wv topic w with
  | Raised e =>
      if is_Exception e
      then Returned ("❌ Error querying Weaviate: " +:+ exc_str e)
      else Raised e
  | Returned results =>
      match objects results with
      | [] => Returned "No books found in Weaviate."
      | _ :: _ =>
          match titles_of (objects results) with
          | Some titles =>
              Returned (join LF (map CustomWeaviateTool.format_title titles))
          | None => Returned "❌ Error querying Weaviate: 'title'"
          end
      end
  end.
Proof.
  unfold backend_response. py_unfold.
  destruct (connect_to_weaviate_cloud wv _ _ _) as [client|e]; cbn;
    [|destruct (is_Exception e); reflexivity].
  destruct (collections_get wv client "Book") as [collection|e]; cbn;
    [|destruct (is_Exception e); reflexivity].
  destruct (near_text wv collection topic 3) as [results|e]; cbn;
    [|destruct (is_Exception e); reflexivity].
  destruct (objects results) as [|obj objs] eqn:Hobjs; [reflexivity|].
  destruct (titles_of (obj :: objs)) as [titles|] eqn:Ht.
  - rewrite (format_objects_titles _ titles _ Ht). reflexivity.
  - rewrite format_objects_missing; [reflexivity|]. by apply titles_of_None.
Qed.

Lemma run_world (wv : Weaviate) (topic : string) (w : World) :
  (CustomWeaviateTool._run wv topic w).2
  = {| environ := environ w; trace := trace w ++ run_calls wv topic w |}.
Proof.
  unfold run_calls. py_unfold.
  destruct (connect_to_weaviate_cloud wv _ _ _) as [client|e]; cbn;
    [|destruct (is_Exception e); cbn; by rewrite <- !app_assoc].
  destruct (collections_get wv client "Book") as [collection|e]; cbn;
    [|destruct (is_Exception e); cbn; by rewrite <- !app_assoc].
  destruct (near_text wv collection topic 3) as [results|e]; cbn;
    [|destruct (is_Exception e); cbn; by rewrite <- !app_assoc].
  destruct (objects results) as [|obj objs] eqn:Hobjs;
    [cbn; by rewrite <- !app_assoc|].
  destruct (titles_of (obj :: objs)) as [titles|] eqn:Ht.
  - rewrite (format_objects_titles _ titles _ Ht). cbn. by rewrite <- !app_assoc.
  - rewrite format_objects_missing by (by apply titles_of_None).
    cbn. by rewrite <- !app_assoc.
Qed.

Lemma events_of_app {A} (m : Py A) (w : World) (evs : list event) :
  trace (m w).2 = trace w ++ evs → events_of m w = evs.
Proof. unfold events_of. intros ->. by rewrite drop_app_length. Qed.

Lemma run_events (wv : Weaviate) (topic : string) (w : World) :
  events_of (CustomWeaviateTool._run wv topic) w = run_calls wv topic w.
Proof. apply events_of_app. by rewrite run_world. Qed.

Lemma run_calls_collections (wv : Weaviate) (topic : string) (w : World)
    (name : string) :
  collections_get_ev name ∈ run_calls wv topic w → name = "Book".
Proof.
  unfold run_calls. intros H.
  destruct (connect_to_weaviate_cloud wv _ _ _) as [client|];
    [destruct (collections_get wv client "Book")|];
    in_events H; by injection H.
Qed.

Lemma run_calls_near_text (wv : Weaviate) (topic : string) (w : World)
    (query : string) (limit : Z) :
  near_text_ev query limit ∈ run_calls wv topic w →
  query = topic ∧ limit = 3%Z ∧ collections_get_ev "Book" ∈ run_calls wv topic w.
Proof.
  unfold run_calls. intros H.
  destruct (connect_to_weaviate_cloud wv _ _ _) as [client|];
    [destruct (collections_get wv client "Book")|];
    in_events H.
  injection H as -> ->. split; [done|]. split; [done|].
  apply elem_of_app. right. apply elem_of_cons. by left.
Qed.

(** ** Lines of the formatted output *)

Lemma split_lines_no_newline (s : string) :
  no_newline s = true → split_lines s = [s].
Proof.
  induction s as [|c s IH]; [done|]. cbn.
  destruct (Ascii.eqb c _); [done|]. cbn. intros H. by rewrite (IH H).
Qed.

Lemma split_lines_line (s rest : string) :
  no_newline s = true →
  split_lines (s +:+ LF +:+ rest) = s :: split_lines rest.
Proof.
  induction s as [|c s IH]; [done|].
  change (String c s +:+ LF +:+ rest) with (String c (s +:+ LF +:+ rest)).
  cbn [split_lines no_newline].
  destruct (Ascii.eqb c _); [done|]. cbn [negb andb]. intros H. by rewrite (IH H).
Qed.

Lemma split_lines_join (parts : list string) :
  parts ≠ [] → Forall (λ s, no_newline s = true) parts →
  split_lines (join LF parts) = parts.
Proof.
  unfold join. induction parts as [|s parts IH]; [done|]. intros _ Hall.
  apply Forall_cons in Hall as [Hs Hall].
  destruct parts as [|s' parts]; [by apply split_lines_no_newline|].
  change (String.concat LF (s :: s' :: parts))
    with (s +:+ LF +:+ String.concat LF (s' :: parts)).
  rewrite split_lines_line by done. by rewrite IH.
Qed.

Lemma no_newline_format_title (title : string) :
  no_newline (CustomWeaviateTool.format_title title) = no_newline title.
Proof. reflexivity. Qed.

Lemma titles_of_length (objs : list Object) (titles : list string) :
  titles_of objs = Some titles → length titles = length objs.
Proof.
  revert titles. induction objs as [|obj objs IH]; intros titles H.
  - by injection H as <-.
  - rewrite titles_of_cons in H.
    destruct (properties obj !! "title"); [|done].
    destruct (titles_of objs) as [rest|]; [|done].
    injection H as <-. cbn. by rewrite (IH rest).
Qed.

Lemma titles_of_take (n : nat) (objs : list Object) (titles : list string) :
  titles_of objs = Some titles → titles_of (take n objs) = Some (take n titles).
Proof.
  unfold titles_of. rewrite !mapM_Some. apply Forall2_take.
Qed.

Lemma honours_limit_response (wv : Weaviate) (topic : string) (w : World)
    (matches : list Object) :
  honours_limit wv topic w matches →
  backend_response wv topic w = Returned {| objects := take 3 matches |}.
Proof.
  intros (client & collection & Hc & Hg & Hq).
  unfold backend_response. by rewrite Hc, Hg, Hq.
Qed.

(** ** The search adapter *)

(** C1, as stated, fails: [except Exception] (line 63) does not catch an
    exception that is not an instance of [Exception].  When the query is
    interrupted by KeyboardInterrupt, [_run] returns no string and the
    exception reaches its caller. *)
Lemma run_backend_exception_counterexample :
  let wv := failing_backend keyboard_interrupt in
  backend_response wv "quantum computing" sample_world = Raised keyboard_interrupt
  ∧ (CustomWeaviateTool._run wv "quantum computing" sample_world).1
    = Raised keyboard_interrupt
  ∧ ∀ out, (CustomWeaviateTool._run wv "quantum computing" sample_world).1
           ≠ Returned out.
Proof.
  cbn zeta. split; [reflexivity|]. split; [reflexivity|].
  intros out H. discriminate H.
Qed.

(** C1, amended.  Whenever connecting to the backend, fetching the
    collection or sending the query raises an exception [e] that is an
    instance of Python's [Exception] (what [except Exception] handles),
    [_run] returns the string "❌ Error querying Weaviate: " followed by
    [str(e)], and raises nothing. *)
Theorem run_catches_backend_exception (wv : Weaviate) (topic : string)
    (w : World) (e : BaseException) :
  backend_response wv topic w = Raised e →
  is_Exception e = true →
  (CustomWeaviateTool._run wv topic w).1
    = Returned ("❌ Error querying Weaviate: " +:+ exc_str e)
  ∧ ∀ e', (CustomWeaviateTool._run wv topic w).1 ≠ Raised e'.
Proof.
  intros Hb He. rewrite run_result, Hb, He. done.
Qed.

Lemma run_catches_backend_exception_witness :
  (CustomWeaviateTool._run (failing_backend timeout_error)
     "quantum computing" sample_world).1
  = Returned "❌ Error querying Weaviate: The request to Weaviate timed out".
Proof.
  apply (run_catches_backend_exception (failing_backend timeout_error)
           "quantum computing" sample_world timeout_error);
    reflexivity.
Defined.

(** What [except Exception] leaves alone: an exception that is not an
    instance of [Exception] (KeyboardInterrupt, SystemExit) goes through
    [_run] to its caller. *)
Remark run_lets_other_BaseException_through (wv : Weaviate) (topic : string)
    (w : World) (e : BaseException) :
  backend_response wv topic w = Raised e →
  is_Exception e = false →
  (CustomWeaviateTool._run wv topic w).1 = Raised e.
Proof.
  intros Hb He. by rewrite run_result, Hb, He.
Qed.

(** C2.  Whenever the backend answers with an empty result list, [_run]
    returns exactly "No books found in Weaviate.": not the empty string,
    and not an exception. *)
Theorem run_no_books (wv : Weaviate) (topic : string) (w : World)
    (results : QueryReturn) :
  backend_response wv topic w = Returned results →
  objects results = [] →
  (CustomWeaviateTool._run wv topic w).1 = Returned "No books found in Weaviate."
  ∧ (CustomWeaviateTool._run wv topic w).1 ≠ Returned ""
  ∧ ∀ e, (CustomWeaviateTool._run wv topic w).1 ≠ Raised e.
Proof.
  intros Hb Hnil. rewrite run_result, Hb, Hnil. done.
Qed.

Lemma run_no_books_witness :
  (CustomWeaviateTool._run (ranked_backend []) "climate change" sample_world).1
  = Returned "No books found in Weaviate.".
Proof.
  apply (run_no_books (ranked_backend []) "climate change" sample_world
           {| objects := [] |}); reflexivity.
Defined.

(** C10.  Whenever the backend answers with a result list in which some
    object has no 'title' property, the KeyError raised while the lines
    are formatted is caught by the handler of [_run], which returns the
    error string built from it; nothing is raised. *)
Theorem run_missing_title (wv : Weaviate) (topic : string) (w : World)
    (results : QueryReturn) :
  backend_response wv topic w = Returned results →
  lacks_title (objects results) →
  (CustomWeaviateTool._run wv topic w).1
    = Returned ("❌ Error querying Weaviate: " +:+ exc_str (KeyError "title"))
  ∧ ∀ e, (CustomWeaviateTool._run wv topic w).1 ≠ Raised e.
Proof.
  intros Hb Hlacks. rewrite run_result, Hb.
  destruct (objects results) as [|obj objs]; [inversion Hlacks|].
  apply titles_of_None in Hlacks. rewrite Hlacks. done.
Qed.

Lemma run_missing_title_witness :
  (CustomWeaviateTool._run (ranked_backend [book "Book A"; untitled])
     "deserts" sample_world).1
  = Returned "❌ Error querying Weaviate: 'title'".
Proof.
  apply (run_missing_title (ranked_backend [book "Book A"; untitled])
           "deserts" sample_world
           {| objects := [book "Book A"; untitled] |}).
  - reflexivity.
  - right. left. reflexivity.
Defined.

(** C3, as stated, fails when a title contains a line feed: the backend
    answers with one object, and the returned string has two lines, the
    second of which does not start with the marker. *)
Lemma run_title_lines_counterexample :
  let wv := ranked_backend [book two_line_title] in
  backend_response wv "tolstoy" sample_world
    = Returned {| objects := [book two_line_title] |}
  ∧ ∃ out, (CustomWeaviateTool._run wv "tolstoy" sample_world).1 = Returned out
    ∧ split_lines out = ["📘 War"; "and Peace"]
    ∧ length (split_lines out) ≠ length [book two_line_title]
    ∧ ¬ Forall (λ line, startswith line "📘 " = true) (split_lines out).
Proof.
  split; [reflexivity|]. eexists. split; [reflexivity|].
  split; [reflexivity|]. split; [by cbn|].
  intros H. apply Forall_cons in H as [_ H]. apply Forall_cons in H as [H _].
  discriminate H.
Qed.

(** C3, amended.  Whenever the backend answers with 1 to 3 objects that
    all have a title, [_run] returns the formatted titles ("📘 " followed
    by the title) joined by line feeds, one per object and in the
    backend's order.  When no title contains a line feed, the lines of
    the returned string are exactly these formatted titles, so there are
    as many lines as objects and each starts with the marker.  For the
    titles Book A and Book B the string is "📘 Book A\n📘 Book B". *)
Theorem run_title_lines (wv : Weaviate) (topic : string) (w : World)
    (results : QueryReturn) (titles : list string) :
  backend_response wv topic w = Returned results →
  1 ≤ length (objects results) ≤ 3 →
  titles_of (objects results) = Some titles →
  ∃ out, (CustomWeaviateTool._run wv topic w).1 = Returned out
    ∧ out = join LF (map CustomWeaviateTool.format_title titles)
    ∧ length titles = length (objects results)
    ∧ (Forall (λ title, no_newline title = true) titles →
       split_lines out = map (λ title, "📘 " +:+ title) titles
       ∧ length (split_lines out) = length (objects results)
       ∧ Forall (λ line, startswith line "📘 " = true) (split_lines out))
    ∧ (titles = ["Book A"; "Book B"] →
       out = "📘 Book A" +:+ LF +:+ "📘 Book B").
Proof.
  intros Hb [Hlen _] Ht. eexists. split.
  { rewrite run_result, Hb, Ht.
    destruct (objects results); [cbn in Hlen; lia | reflexivity]. }
  pose proof (titles_of_length _ _ Ht) as Hl.
  split; [reflexivity|]. split; [done|]. split.
  - intros Hnl.
    assert (split_lines (join LF (map CustomWeaviateTool.format_title titles))
            = map CustomWeaviateTool.format_title titles) as ->.
    { apply split_lines_join.
      - destruct titles; [cbn in Hl; lia | done].
      - apply Forall_map. eapply Forall_impl; [exact Hnl|].
        intros title. by rewrite no_newline_format_title. }
    split; [reflexivity|]. split; [by rewrite length_map|].
    apply Forall_map, Forall_forall. intros title _. reflexivity.
  - intros ->. reflexivity.
Qed.

Lemma run_title_lines_witness :
  ∃ out, (CustomWeaviateTool._run (ranked_backend [book "Book A"; book "Book B"])
            "climate change" sample_world).1 = Returned out
    ∧ out = "📘 Book A" +:+ LF +:+ "📘 Book B"
    ∧ split_lines out = ["📘 Book A"; "📘 Book B"].
Proof.
  destruct (run_title_lines (ranked_backend [book "Book A"; book "Book B"])
              "climate change" sample_world
              {| objects := [book "Book A"; book "Book B"] |}
              ["Book A"; "Book B"])
    as (out & Hout & _ & _ & Hlines & Hab).
  - reflexivity.
  - cbn. lia.
  - reflexivity.
  - exists out. split; [exact Hout|]. split; [by apply Hab|].
    apply Hlines. repeat constructor.
Defined.

(** C4.  [_run] only ever fetches the collection "Book" and only ever
    sends one kind of query: the topic it was given, with limit 3, on
    that collection.  It prints every object of the backend's answer, in
    the backend's order, whatever their number.  So when the backend
    holds a ranked list of matches and honours the limit, exactly the
    first 3 of them appear. *)
Theorem run_query_contract (wv : Weaviate) (topic : string) (w : World) :
  let evs := events_of (CustomWeaviateTool._run wv topic) w in
  (∀ name, collections_get_ev name ∈ evs → name = "Book")
  ∧ (∀ query limit, near_text_ev query limit ∈ evs →
       query = topic ∧ limit = 3%Z ∧ collections_get_ev "Book" ∈ evs)
  ∧ (∀ results titles,
       backend_response wv topic w = Returned results →
       objects results ≠ [] →
       titles_of (objects results) = Some titles →
       (CustomWeaviateTool._run wv topic w).1
       = Returned (join LF (map CustomWeaviateTool.format_title titles)))
  ∧ (∀ matches titles,
       honours_limit wv topic w matches →
       3 < length matches →
       titles_of matches = Some titles →
       (CustomWeaviateTool._run wv topic w).1
       = Returned (join LF (map CustomWeaviateTool.format_title (take 3 titles)))).
Proof.
  cbn zeta. rewrite run_events.
  assert (∀ results titles,
       backend_response wv topic w = Returned results →
       objects results ≠ [] →
       titles_of (objects results) = Some titles →
       (CustomWeaviateTool._run wv topic w).1
       = Returned (join LF (map CustomWeaviateTool.format_title titles))) as Hall.
  { intros results titles Hb Hne Ht. rewrite run_result, Hb, Ht.
    by destruct (objects results). }
  split; [apply run_calls_collections|].
  split; [apply run_calls_near_text|].
  split.
  - exact Hall.
  - intros matches titles Hh Hlen Ht.
    apply (Hall {| objects := take 3 matches |}).
    + by apply honours_limit_response.
    + cbn. destruct matches; [cbn in Hlen; lia | done].
    + by apply titles_of_take.
Qed.

Lemma run_query_contract_witness :
  (CustomWeaviateTool._run (ranked_backend five_books) "climate change"
     sample_world).1
  = Returned ("📘 Book A" +:+ LF +:+ "📘 Book B" +:+ LF +:+ "📘 Book C").
Proof.
  apply (run_query_contract (ranked_backend five_books) "climate change"
           sample_world) with (matches := five_books)
           (titles := ["Book A"; "Book B"; "Book C"; "Book D"; "Book E"]).
  - exists (), "Book". repeat split.
  - cbn. lia.
  - reflexivity.
Defined.

(** ** The page and the workflow *)

Lemma ui_world (st : Streamlit) (engine : Engine) (w : World) :
  (streamlit_ui st engine w).2
  = {| environ := environ w; trace := trace w ++ ui_calls st engine |}.
Proof.
  unfold ui_calls, submit_guard, submitted_crew, submitted_query. ui_unfold.
  destruct (button st button_label); cbn [andb];
    [|cbn; by rewrite <- !app_assoc].
  destruct (str_truthy (text_input st text_input_label));
    [|cbn; by rewrite <- !app_assoc].
  destruct (kickoff engine _) as [[result|e] crew']; cbn [fst snd].
  - destruct (tasks crew' !! 0) as [task0|]; cbn; by rewrite <- !app_assoc.
  - destruct (is_Exception e); cbn; by rewrite <- !app_assoc.
Qed.

Lemma ui_events (st : Streamlit) (engine : Engine) (w : World) :
  events_of (streamlit_ui st engine) w = ui_calls st engine.
Proof. apply events_of_app. by rewrite ui_world. Qed.

Lemma str_truthy_nonempty (s : string) : str_truthy s = true ↔ s ≠ "".
Proof. by destruct s. Qed.

(** C6.  When the input box is empty, whether or not the button was
    pressed, the page makes its four widget calls and nothing else: no
    [WorkshopAgentsAndTasks] and no crew are built, and [kickoff] is not
    called. *)
Theorem empty_query_runs_nothing (st : Streamlit) (engine : Engine) (w : World) :
  submitted_query st = "" →
  (streamlit_ui st engine w).1
    = Returned {| g_user_query := ""; g_workshop := None;
                  g_crew := None; g_result := None |}
  ∧ events_of (streamlit_ui st engine) w = ui_prelude
  ∧ kickoffs (events_of (streamlit_ui st engine) w) = [].
Proof.
  intros Hq. rewrite ui_events. unfold ui_calls, submit_guard. rewrite Hq.
  rewrite andb_false_r, app_nil_r. split; [|done].
  unfold submitted_query in Hq. ui_unfold. rewrite Hq.
  by rewrite andb_false_r.
Qed.

Lemma empty_query_runs_nothing_witness :
  events_of (streamlit_ui (typed "" true) (failing_engine provider_error))
    sample_world = ui_prelude.
Proof.
  apply (empty_query_runs_nothing (typed "" true)
           (failing_engine provider_error) sample_world).
  reflexivity.
Defined.

(** C7.  When a non-empty query is submitted and [kickoff] raises an
    exception [e], the page catches it: the script ends normally, with
    exactly one error banner, "❌ Something went wrong: " followed by
    [str(e)], and without the success message or any markdown section, so
    the analyst's output is not shown, even if the engine had already
    stored it in the first task. *)
Theorem workflow_error_banner (st : Streamlit) (engine : Engine) (w : World)
    (e : BaseException) (crew_after : Crew) :
  submitted_query st ≠ "" →
  button st button_label = true →
  kickoff engine (submitted_crew st) = (Raised e, crew_after) →
  is_Exception e = true →
  let evs := events_of (streamlit_ui st engine) w in
  (∃ globals, (streamlit_ui st engine w).1 = Returned globals
              ∧ g_result globals = None)
  ∧ evs = ui_prelude ++
          [info_ev "Running CrewAI Workflow... Please wait ⏳";
           kickoff_ev (submitted_crew st);
           error_ev ("❌ Something went wrong: " +:+ exc_str e)]
  ∧ error_banners evs = ["❌ Something went wrong: " +:+ exc_str e]
  ∧ markdown_sections evs = []
  ∧ ∀ body, success_ev body ∉ evs.
Proof.
  intros Hq Hb Hk He. cbn zeta. rewrite ui_events.
  apply str_truthy_nonempty in Hq.
  assert (ui_calls st engine = ui_prelude ++
          [info_ev "Running CrewAI Workflow... Please wait ⏳";
           kickoff_ev (submitted_crew st);
           error_ev ("❌ Something went wrong: " +:+ exc_str e)]) as ->.
  { unfold ui_calls, submit_guard. by rewrite Hb, Hq, Hk, He. }
  split.
  { unfold submitted_crew, submitted_query in *. ui_unfold.
    rewrite Hb, Hq, Hk. cbn. rewrite He. cbn. eexists. by split. }
  split; [done|]. split; [done|]. split; [done|].
  intros body H. unfold ui_prelude in H. in_events H.
Qed.

Lemma workflow_error_banner_witness :
  error_banners
    (events_of (streamlit_ui (typed "quantum computing" true)
                  (failing_engine provider_error)) sample_world)
  = ["❌ Something went wrong: Rate limit reached for o3-mini"].
Proof.
  refine (proj1 (proj2 (proj2
    (workflow_error_banner (typed "quantum computing" true)
       (failing_engine provider_error) sample_world provider_error
       (kickoff (failing_engine provider_error)
          (submitted_crew (typed "quantum computing" true))).2
       _ _ _ _)))).
  - discriminate.
  - reflexivity.
  - reflexivity.
  - reflexivity.
Defined.

(** C5.  When a non-empty query is submitted, the crew handed to
    [kickoff] (the only one) has exactly the two agents, analyst then
    recommender, and exactly two tasks: first the analysis task, whose
    agent is the data analyst, then the recommendation task, whose agent
    is the resource recommender; the process is sequential. *)
Theorem crew_has_two_agents_two_tasks (st : Streamlit) (engine : Engine)
    (w : World) :
  submitted_query st ≠ "" →
  button st button_label = true →
  let self := WorkshopAgentsAndTasks.__init__ (submitted_query st) in
  let crew := WorkshopAgentsAndTasks.create_workshop_crew self in
  kickoffs (events_of (streamlit_ui st engine) w) = [crew]
  ∧ agents crew = [WorkshopAgentsAndTasks.data_analyst_agent self;
                   WorkshopAgentsAndTasks.resource_recommender_agent self]
  ∧ length (agents crew) = 2
  ∧ length (tasks crew) = 2
  ∧ (∃ analysis recommendation,
       tasks crew = [analysis; recommendation]
       ∧ analysis = WorkshopAgentsAndTasks.create_data_analysis_task self
       ∧ agent analysis = WorkshopAgentsAndTasks.data_analyst_agent self
       ∧ recommendation
         = WorkshopAgentsAndTasks.create_resource_recommendation_task self
       ∧ agent recommendation
         = WorkshopAgentsAndTasks.resource_recommender_agent self)
  ∧ WorkshopAgentsAndTasks.data_analyst_agent self
    ≠ WorkshopAgentsAndTasks.resource_recommender_agent self
  ∧ process crew = sequential.
Proof.
  intros Hq Hb. cbn zeta. split.
  - rewrite ui_events. apply str_truthy_nonempty in Hq.
    unfold ui_calls, submit_guard. rewrite Hb, Hq. cbn [andb].
    unfold submitted_crew.
    destruct (kickoff engine _) as [[result|e] crew'].
    + by destruct (tasks crew' !! 0).
    + by destruct (is_Exception e).
  - split; [done|]. split; [done|]. split; [done|]. split.
    + by eexists _, _.
    + split; [|done]. intros H. discriminate H.
Qed.

Lemma crew_has_two_agents_two_tasks_witness :
  kickoffs (events_of (streamlit_ui (typed "climate change" true)
                         (failing_engine provider_error)) sample_world)
  = [WorkshopAgentsAndTasks.create_workshop_crew
       (WorkshopAgentsAndTasks.__init__ "climate change")].
Proof.
  apply (crew_has_two_agents_two_tasks (typed "climate change" true)
           (failing_engine provider_error) sample_world).
  - discriminate.
  - reflexivity.
Defined.

(** The recommendation task is built from the query and the recommender
    agent alone: the script passes it no task, no context and no output,
    and both tasks are handed to the engine before either has an output.
    What the engine forwards from one task to the next while it runs is
    the engine's own behaviour, which the script does not fix. *)
Remark recommendation_task_built_from_query (self self' : WorkshopAgentsAndTasks.t) :
  WorkshopAgentsAndTasks.user_query self = WorkshopAgentsAndTasks.user_query self' →
  WorkshopAgentsAndTasks.resource_recommender_agent self
    = WorkshopAgentsAndTasks.resource_recommender_agent self' →
  WorkshopAgentsAndTasks.create_resource_recommendation_task self
    = WorkshopAgentsAndTasks.create_resource_recommendation_task self'
  ∧ Forall (λ task, output task = None)
      (tasks (WorkshopAgentsAndTasks.create_workshop_crew self)).
Proof.
  intros Hq Ha. split.
  - unfold WorkshopAgentsAndTasks.create_resource_recommendation_task.
    by rewrite Hq, Ha.
  - by repeat constructor.
Qed.

(** ** Environment variables *)

Lemma module_init_events (dotenv : gmap string string) (w : World) :
  events_of (module_init dotenv) w
  = [load_dotenv_ev; getenv_ev "OPIK_API_KEY";
     opik_configure_ev false ((environ w ∪ dotenv) !! "OPIK_API_KEY");
     OpenAI_ev; getenv_ev "OPENAI_API_KEY"]
    ++ match (environ w ∪ dotenv) !! "OPENAI_API_KEY" with
       | Some _ => [track_openai_ev; track_crewai_ev "Interactive-Workshop"]
       | None => []
       end.
Proof.
  apply events_of_app. unfold module_init, OpenAI_new, load_dotenv. py_unfold.
  destruct ((environ w ∪ dotenv) !! "OPENAI_API_KEY");
    cbn; by rewrite <- !app_assoc.
Qed.

Lemma module_init_env_reads (dotenv : gmap string string) (w : World) :
  env_reads (events_of (module_init dotenv) w)
  = ["OPIK_API_KEY"; "OPENAI_API_KEY"].
Proof.
  rewrite module_init_events.
  by destruct ((environ w ∪ dotenv) !! "OPENAI_API_KEY").
Qed.

Lemma run_calls_env_reads (wv : Weaviate) (topic : string) (w : World) :
  env_reads (run_calls wv topic w)
  = ["WEAVIATE_CLUSTER_URL"; "WEAVIATE_API_KEY"; "OPENAI_API_KEY"].
Proof.
  unfold run_calls.
  destruct (connect_to_weaviate_cloud wv _ _ _) as [client|];
    [destruct (collections_get wv client "Book")|]; reflexivity.
Qed.

(** C8, as stated, fails: module initialisation does not read the
    cluster URL of the vector search; the search tool reads it when it is
    called, after start-up.  The key of the language-model provider is
    read at start-up, and the search tool reads it again. *)
Lemma env_read_at_startup_counterexample :
  let started := (module_init sample_dotenv blank_world).2 in
  ("WEAVIATE_CLUSTER_URL" ∈ required_environment)
  ∧ ("WEAVIATE_CLUSTER_URL"
     ∉ env_reads (events_of (module_init sample_dotenv) blank_world))
  ∧ ("WEAVIATE_CLUSTER_URL"
     ∈ env_reads (events_of (CustomWeaviateTool._run (ranked_backend [])
                               "climate change") started))
  ∧ ("OPENAI_API_KEY" ∈ required_environment)
  ∧ ("OPENAI_API_KEY"
     ∈ env_reads (events_of (module_init sample_dotenv) blank_world))
  ∧ ("OPENAI_API_KEY"
     ∈ env_reads (events_of (CustomWeaviateTool._run (ranked_backend [])
                               "climate change") started)).
Proof.
  cbn zeta. rewrite module_init_env_reads, run_events, run_calls_env_reads.
  unfold required_environment. repeat split.
  - apply elem_of_cons. right. apply elem_of_cons. right.
    apply elem_of_cons. by left.
  - intros H. in_events H.
  - apply elem_of_cons. by left.
  - apply elem_of_cons. right. apply elem_of_cons. by left.
  - apply elem_of_cons. right. apply elem_of_cons. by left.
  - apply elem_of_cons. right. apply elem_of_cons. right.
    apply elem_of_cons. by left.
Qed.

(** C8, amended.  At start-up, after the .env file is loaded, two
    variables are read: OPIK_API_KEY, which the script passes to
    [opik.configure], and OPENAI_API_KEY, which [OpenAI()] looks up.  The
    cluster URL and API key of the vector search are not read then: [_run]
    reads them each time it is called, together with OPENAI_API_KEY, which
    it reads again for a header, and opens the connection with the values
    the environment has at that call. *)
Theorem env_reads_by_phase (dotenv : gmap string string) (w0 : World)
    (wv : Weaviate) (topic : string) (w : World) :
  let at_startup := env_reads (events_of (module_init dotenv) w0) in
  at_startup = ["OPIK_API_KEY"; "OPENAI_API_KEY"]
  ∧ ("WEAVIATE_CLUSTER_URL" ∉ at_startup)
  ∧ ("WEAVIATE_API_KEY" ∉ at_startup)
  ∧ (opik_configure_ev false ((environ w0 ∪ dotenv) !! "OPIK_API_KEY")
     ∈ events_of (module_init dotenv) w0)
  ∧ env_reads (events_of (CustomWeaviateTool._run wv topic) w)
    = ["WEAVIATE_CLUSTER_URL"; "WEAVIATE_API_KEY"; "OPENAI_API_KEY"]
  ∧ ∃ rest,
      events_of (CustomWeaviateTool._run wv topic) w
      = [getenv_ev "WEAVIATE_CLUSTER_URL"; getenv_ev "WEAVIATE_API_KEY";
         getenv_ev "OPENAI_API_KEY";
         connect_to_weaviate_cloud_ev (environ w !! "WEAVIATE_CLUSTER_URL")
           (Auth_api_key (environ w !! "WEAVIATE_API_KEY"))
           {[ "X-OpenAI-Api-Key" := environ w !! "OPENAI_API_KEY" ]}]
        ++ rest.
Proof.
  cbn zeta. rewrite module_init_env_reads, run_events, run_calls_env_reads.
  split; [done|]. split; [intros H; in_events H|].
  split; [intros H; in_events H|]. split.
  - rewrite module_init_events. apply elem_of_app. left.
    apply elem_of_cons. right. apply elem_of_cons. right.
    apply elem_of_cons. by left.
  - split; [done|]. unfold run_calls. by eexists.
Qed.

(** * Further properties of the search tool *)

Lemma startswith_app (p s : string) : startswith (p +:+ s) p = true.
Proof.
  induction p as [|c p IH]; [done|].
  change (String c p +:+ s) with (String c (p +:+ s)). cbn [startswith].
  by rewrite Ascii.eqb_refl, IH.
Qed.

Lemma join_cons_app (first : string) (rest : list string) :
  ∃ tail, join LF (first :: rest) = first +:+ tail.
Proof.
  unfold join. destruct rest as [|second rest]; cbn [String.concat].
  - exists "". clear. induction first as [|c s IH]; [done|].
    change (String c s +:+ "") with (String c (s +:+ "")). by rewrite <- IH.
  - by eexists.
Qed.

Lemma append_assoc (s1 s2 s3 : string) :
  (s1 +:+ s2) +:+ s3 = s1 +:+ s2 +:+ s3.
Proof.
  induction s1 as [|c s1 IH]; [done|].
  change ((String c s1 +:+ s2) +:+ s3) with (String c ((s1 +:+ s2) +:+ s3)).
  by rewrite IH.
Qed.

Lemma run_calls_same_environ (wv : Weaviate) (topic : string) (w w' : World) :
  Forall (λ name, environ w !! name = environ w' !! name) adapter_environment →
  backend_response wv topic w = backend_response wv topic w'
  ∧ run_calls wv topic w = run_calls wv topic w'.
Proof.
  intros H. apply Forall_cons in H as [Hurl H].
  apply Forall_cons in H as [Hkey H]. apply Forall_cons in H as [Hopenai _].
  unfold backend_response, run_calls. by rewrite Hurl, Hkey, Hopenai.
Qed.

(** X1.  Whatever the backend does, a string returned by [_run] is never
    empty and has one of three shapes: the fixed "No books found in
    Weaviate.", an error report starting with "❌ Error querying
    Weaviate: ", or a list starting with the title marker "📘 ". *)
Theorem run_output_shape (wv : Weaviate) (topic : string) (w : World)
    (out : string) :
  (CustomWeaviateTool._run wv topic w).1 = Returned out →
  out ≠ ""
  ∧ (out = "No books found in Weaviate."
     ∨ startswith out "❌ Error querying Weaviate: " = true
     ∨ startswith out "📘 " = true).
Proof.
  rewrite run_result.
  destruct (backend_response wv topic w) as [results|e].
  - destruct (objects results) as [|obj objs] eqn:Hobjs.
    { intros [= <-]. split; [done|]. by left. }
    destruct (titles_of (obj :: objs)) as [titles|] eqn:Ht.
    + intros [= <-]. rewrite titles_of_cons in Ht.
      destruct (properties obj !! "title") as [title|]; [|done].
      destruct (titles_of objs) as [rest|]; [|done].
      injection Ht as <-. cbn [map].
      destruct (join_cons_app (CustomWeaviateTool.format_title title)
                  (map CustomWeaviateTool.format_title rest)) as [tail ->].
      unfold CustomWeaviateTool.format_title. rewrite append_assoc.
      split; [done|]. right. right. apply startswith_app.
    + intros [= <-]. split; [done|]. right. by left.
  - destruct (is_Exception e); [|done].
    intros [= <-]. split; [done|]. right. left. apply startswith_app.
Qed.

Lemma run_output_shape_witness :
  "📘 Book A" +:+ LF +:+ "📘 Book B" ≠ "".
Proof.
  apply (run_output_shape (ranked_backend [book "Book A"; book "Book B"])
           "climate change" sample_world).
  reflexivity.
Defined.

(** X2.  [except Exception] does not stop everything: when a backend call
    raises something that is not an instance of [Exception], [_run]
    returns no string; the same exception reaches its caller. *)
Theorem run_propagates_non_Exception (wv : Weaviate) (topic : string)
    (w : World) (e : BaseException) :
  backend_response wv topic w = Raised e →
  is_Exception e = false →
  (CustomWeaviateTool._run wv topic w).1 = Raised e
  ∧ ∀ out, (CustomWeaviateTool._run wv topic w).1 ≠ Returned out.
Proof.
  intros Hb He. rewrite run_result, Hb, He. done.
Qed.

Lemma run_propagates_non_Exception_witness :
  (CustomWeaviateTool._run (failing_backend keyboard_interrupt)
     "climate change" sample_world).1 = Raised keyboard_interrupt.
Proof.
  apply (run_propagates_non_Exception (failing_backend keyboard_interrupt)
           "climate change" sample_world keyboard_interrupt); reflexivity.
Defined.

(** X3.  A failure stops the calls where it happens.  When the
    connection fails, [_run] has read its three variables and tried to
    connect, and does nothing more: no collection is fetched and no query
    is sent.  When fetching the collection fails, no query is sent. *)
Theorem run_stops_at_failure (wv : Weaviate) (topic : string) (w : World) :
  let evs := events_of (CustomWeaviateTool._run wv topic) w in
  (∀ e, backend_connect wv w = Raised e →
        evs = [getenv_ev "WEAVIATE_CLUSTER_URL"; getenv_ev "WEAVIATE_API_KEY";
               getenv_ev "OPENAI_API_KEY";
               connect_to_weaviate_cloud_ev (environ w !! "WEAVIATE_CLUSTER_URL")
                 (Auth_api_key (environ w !! "WEAVIATE_API_KEY"))
                 {[ "X-OpenAI-Api-Key" := environ w !! "OPENAI_API_KEY" ]}]
        ∧ queries evs = [])
  ∧ (∀ client e, backend_connect wv w = Returned client →
        collections_get wv client "Book" = Raised e →
        (∃ before, evs = before ++ [collections_get_ev "Book"])
        ∧ queries evs = []).
Proof.
  cbn zeta. rewrite run_events. unfold run_calls, backend_connect. split.
  - intros e ->. done.
  - intros client e -> ->. split; [|done]. by eexists [_; _; _; _].
Qed.

Lemma run_stops_at_failure_witness :
  queries (events_of (CustomWeaviateTool._run (unreachable_backend timeout_error)
                        "climate change") sample_world) = []
  ∧ queries (events_of (CustomWeaviateTool._run
                          (collectionless_backend timeout_error)
                          "climate change") sample_world) = [].
Proof.
  split.
  - apply (run_stops_at_failure (unreachable_backend timeout_error)
             "climate change" sample_world) with (e := timeout_error).
    reflexivity.
  - apply (run_stops_at_failure (collectionless_backend timeout_error)
             "climate change" sample_world) with (client := ())
             (e := timeout_error); reflexivity.
Defined.

Lemma run_pair (wv : Weaviate) (topic : string) (w : World) :
  CustomWeaviateTool._run wv topic w
  = ((CustomWeaviateTool._run wv topic w).1,
     {| environ := environ w; trace := trace w ++ run_calls wv topic w |}).
Proof. rewrite <- run_world. by destruct (CustomWeaviateTool._run wv topic w). Qed.

Lemma run_calls_connections (wv : Weaviate) (topic : string) (w : World) :
  connections (run_calls wv topic w)
  = [(environ w !! "WEAVIATE_CLUSTER_URL",
      Auth_api_key (environ w !! "WEAVIATE_API_KEY"),
      {[ "X-OpenAI-Api-Key" := environ w !! "OPENAI_API_KEY" ]})].
Proof.
  unfold run_calls.
  destruct (connect_to_weaviate_cloud wv _ _ _) as [client|];
    [destruct (collections_get wv client "Book")|]; reflexivity.
Qed.

Lemma run_calls_queries (wv : Weaviate) (topic : string) (w : World) :
  length (queries (run_calls wv topic w)) ≤ 1.
Proof.
  unfold run_calls.
  destruct (connect_to_weaviate_cloud wv _ _ _) as [client|];
    [destruct (collections_get wv client "Book")|]; cbn; lia.
Qed.

(** X4.  Every call of [_run] opens exactly one connection, with what
    [os.getenv] gives at that moment for the cluster URL, the API key and
    the OpenAI header ([None] for a variable that is not set: nothing is
    checked before connecting), and sends at most one query. *)
Theorem run_one_connection (wv : Weaviate) (topic : string) (w : World) :
  let evs := events_of (CustomWeaviateTool._run wv topic) w in
  connections evs
    = [(environ w !! "WEAVIATE_CLUSTER_URL",
        Auth_api_key (environ w !! "WEAVIATE_API_KEY"),
        {[ "X-OpenAI-Api-Key" := environ w !! "OPENAI_API_KEY" ]})]
  ∧ length (queries evs) ≤ 1.
Proof.
  cbn zeta. rewrite run_events. split.
  - apply run_calls_connections.
  - apply run_calls_queries.
Qed.

(** X5.  The topic is sent as it is, the empty string included: once the
    connection is open and the collection fetched, [_run] sends exactly
    one query, with the topic it was given and limit 3. *)
Theorem run_sends_topic_verbatim (wv : Weaviate) (topic : string) (w : World)
    (client : WeaviateClient wv) (collection : Collection wv) :
  backend_connect wv w = Returned client →
  collections_get wv client "Book" = Returned collection →
  queries (events_of (CustomWeaviateTool._run wv topic) w) = [(topic, 3%Z)].
Proof.
  intros Hc Hg. rewrite run_events. unfold run_calls, backend_connect in *.
  by rewrite Hc, Hg.
Qed.

Lemma run_sends_topic_verbatim_witness :
  queries (events_of (CustomWeaviateTool._run (ranked_backend five_books) "")
             sample_world) = [("", 3%Z)].
Proof.
  apply (run_sends_topic_verbatim (ranked_backend five_books) "" sample_world
           () "Book"); reflexivity.
Defined.

(** X6.  Of the environment, [_run] uses the three variables it looks up
    and nothing else: in two worlds that agree on WEAVIATE_CLUSTER_URL,
    WEAVIATE_API_KEY and OPENAI_API_KEY it makes the same calls and hands
    back the same result. *)
Theorem run_depends_on_three_variables (wv : Weaviate) (topic : string)
    (w w' : World) :
  Forall (λ name, environ w !! name = environ w' !! name) adapter_environment →
  (CustomWeaviateTool._run wv topic w).1 = (CustomWeaviateTool._run wv topic w').1
  ∧ events_of (CustomWeaviateTool._run wv topic) w
    = events_of (CustomWeaviateTool._run wv topic) w'.
Proof.
  intros H. destruct (run_calls_same_environ wv topic w w' H) as [Hb Hc].
  by rewrite !run_result, !run_events, Hb, Hc.
Qed.

Lemma run_depends_on_three_variables_witness :
  (CustomWeaviateTool._run (ranked_backend five_books) "climate change"
     sample_world).1
  = (CustomWeaviateTool._run (ranked_backend five_books) "climate change"
       {| environ := <[ "OPIK_API_KEY" := "opik-key" ]> (environ sample_world);
          trace := [load_dotenv_ev] |}).1.
Proof.
  apply (run_depends_on_three_variables (ranked_backend five_books)
           "climate change" sample_world).
  repeat constructor.
Defined.

(** X7.  Calls do not share anything: when [_run] is called twice in a
    row, the second call reads the environment again, opens a connection
    of its own and returns what it would have returned alone; the trace is
    the calls of the first followed by the calls of the second. *)
Theorem run_twice_independent (wv : Weaviate) (topic1 topic2 : string)
    (w : World) (out1 : string) :
  (CustomWeaviateTool._run wv topic1 w).1 = Returned out1 →
  (run_twice wv topic1 topic2 w).1
    = match (CustomWeaviateTool._run wv topic2 w).1 with
      | Returned out2 => Returned (out1, out2)
      | Raised e => Raised e
      end
  ∧ events_of (run_twice wv topic1 topic2) w
    = events_of (CustomWeaviateTool._run wv topic1) w
      ++ events_of (CustomWeaviateTool._run wv topic2) w
  ∧ length (connections (events_of (run_twice wv topic1 topic2) w)) = 2.
Proof.
  intros H1.
  set (w1 := {| environ := environ w; trace := trace w ++ run_calls wv topic1 w |}).
  assert (Forall (λ name, environ w1 !! name = environ w !! name)
            adapter_environment) as Hsame by (by repeat constructor).
  destruct (run_calls_same_environ wv topic2 w1 w Hsame) as [Hb Hc].
  assert ((CustomWeaviateTool._run wv topic2 w1).1
          = (CustomWeaviateTool._run wv topic2 w).1) as Hr2
    by (by rewrite !run_result, Hb).
  assert (run_twice wv topic1 topic2 w
          = (match (CustomWeaviateTool._run wv topic2 w).1 with
             | Returned out2 => Returned (out1, out2)
             | Raised e => Raised e
             end,
             {| environ := environ w;
                trace := trace w ++ run_calls wv topic1 w
                                 ++ run_calls wv topic2 w |})) as Htwice.
  { unfold run_twice, mbind, Py_bind.
    rewrite (run_pair wv topic1 w), H1. fold w1.
    rewrite (run_pair wv topic2 w1), Hr2, Hc. unfold w1. cbn [environ trace].
    rewrite <- app_assoc.
    by destruct (CustomWeaviateTool._run wv topic2 w).1. }
  assert (events_of (run_twice wv topic1 topic2) w
          = run_calls wv topic1 w ++ run_calls wv topic2 w) as Hev
    by (apply events_of_app; by rewrite Htwice).
  split; [by rewrite Htwice|]. split.
  - by rewrite Hev, !run_events.
  - rewrite Hev. unfold connections. rewrite omap_app, length_app.
    fold (connections (run_calls wv topic1 w)).
    fold (connections (run_calls wv topic2 w)).
    by rewrite !run_calls_connections.
Qed.

Lemma run_twice_independent_witness :
  (run_twice (ranked_backend [book "Book A"]) "climate change" "oceans"
     sample_world).1 = Returned ("📘 Book A", "📘 Book A").
Proof.
  apply (run_twice_independent (ranked_backend [book "Book A"])
           "climate change" "oceans" sample_world "📘 Book A").
  reflexivity.
Defined.

(** * Further properties of the page *)

(** X8.  A query alone starts nothing: as long as the button is not
    pressed, whatever the input box holds, the page makes its four widget
    calls and stops; nothing is built and the engine is not called. *)
Theorem button_not_pressed_runs_nothing (st : Streamlit) (engine : Engine)
    (w : World) :
  button st button_label = false →
  (streamlit_ui st engine w).1
    = Returned {| g_user_query := submitted_query st; g_workshop := None;
                  g_crew := None; g_result := None |}
  ∧ events_of (streamlit_ui st engine) w = ui_prelude.
Proof.
  intros Hb. rewrite ui_events. unfold ui_calls, submit_guard. rewrite Hb.
  cbn [andb]. rewrite app_nil_r. split; [|done].
  unfold submitted_query. ui_unfold. by rewrite Hb.
Qed.

Lemma button_not_pressed_runs_nothing_witness :
  events_of (streamlit_ui (typed "climate change" false)
               (answering_engine "Two books.")) sample_world = ui_prelude.
Proof.
  apply (button_not_pressed_runs_nothing (typed "climate change" false)
           (answering_engine "Two books.") sample_world).
  reflexivity.
Defined.

(** X9.  When a non-empty query is submitted and [kickoff] returns, the
    page shows, in this order: the waiting notice, the success message,
    the analyst heading with the output of the first task of the crew as
    the engine left it, and the recommender heading with the value
    [kickoff] returned.  No error banner is shown, and [crew] and [result]
    are bound to the crew after the run and to the returned value. *)
Theorem workflow_success_sections (st : Streamlit) (engine : Engine)
    (w : World) (result : CrewOutput) (crew_after : Crew) (task0 : Task) :
  submitted_query st ≠ "" →
  button st button_label = true →
  kickoff engine (submitted_crew st) = (Returned result, crew_after) →
  tasks crew_after !! 0 = Some task0 →
  let evs := events_of (streamlit_ui st engine) w in
  evs = ui_prelude ++
        [info_ev "Running CrewAI Workflow... Please wait ⏳";
         kickoff_ev (submitted_crew st);
         success_ev "✅ Workflow completed successfully!";
         markdown_ev (md_str "### 📊 Data Analyst Output");
         markdown_ev (md_task_output (output task0));
         markdown_ev (md_str "### 📚 Resource Recommender Output");
         markdown_ev (md_crew_output result)]
  ∧ error_banners evs = []
  ∧ (streamlit_ui st engine w).1
    = Returned {| g_user_query := submitted_query st;
                  g_workshop := Some (WorkshopAgentsAndTasks.__init__
                                        (submitted_query st));
                  g_crew := Some crew_after; g_result := Some result |}.
Proof.
  intros Hq Hb Hk Ht. cbn zeta. rewrite ui_events.
  apply str_truthy_nonempty in Hq.
  assert (ui_calls st engine = ui_prelude ++
        [info_ev "Running CrewAI Workflow... Please wait ⏳";
         kickoff_ev (submitted_crew st);
         success_ev "✅ Workflow completed successfully!";
         markdown_ev (md_str "### 📊 Data Analyst Output");
         markdown_ev (md_task_output (output task0));
         markdown_ev (md_str "### 📚 Resource Recommender Output");
         markdown_ev (md_crew_output result)]) as ->.
  { unfold ui_calls, submit_guard. by rewrite Hb, Hq, Hk, Ht. }
  split; [done|]. split; [done|].
  unfold submitted_crew, submitted_query in *. ui_unfold.
  rewrite Hb, Hq, Hk. cbn. by rewrite Ht.
Qed.

Lemma workflow_success_sections_witness :
  markdown_sections
    (events_of (streamlit_ui (typed "climate change" true)
                  (answering_engine "Two books.")) sample_world)
  = [md_str "### 📊 Data Analyst Output";
     md_task_output (Some {| task_raw := "Three trends." |});
     md_str "### 📚 Resource Recommender Output";
     md_crew_output {| crew_raw := "Two books." |}].
Proof.
  rewrite (proj1 (workflow_success_sections (typed "climate change" true)
                    (answering_engine "Two books.") sample_world
                    {| crew_raw := "Two books." |}
                    (kickoff (answering_engine "Two books.")
                       (submitted_crew (typed "climate change" true))).2
                    (with_output "Three trends."
                       (WorkshopAgentsAndTasks.create_data_analysis_task
                          (WorkshopAgentsAndTasks.__init__ "climate change")))
                    ltac:(discriminate) eq_refl eq_refl eq_refl)).
  reflexivity.
Defined.

(** X10.  In every run of the page, whatever the widgets and the engine
    do: [kickoff] is called at most once, at most one error banner is
    shown, and a final result is shown at most once.  Wherever a final
    result stands in the trace, the success message stands before it, and
    the trace has no error banner. *)
Theorem page_shows_result_or_banner (st : Streamlit) (engine : Engine)
    (w : World) :
  let evs := events_of (streamlit_ui st engine) w in
  length (kickoffs evs) ≤ 1
  ∧ length (error_banners evs) ≤ 1
  ∧ length (result_sections evs) ≤ 1
  ∧ (∀ before result after,
       evs = before ++ markdown_ev (md_crew_output result) :: after →
       success_ev "✅ Workflow completed successfully!" ∈ before
       ∧ error_banners evs = []).
Proof.
  cbn zeta. rewrite ui_events. unfold ui_calls, ui_prelude.
  destruct (submit_guard st).
  - destruct (kickoff engine (submitted_crew st)) as [[result|e] crew_after];
      [destruct (tasks crew_after !! 0) | destruct (is_Exception e)];
      (split; [cbn; lia|]); (split; [cbn; lia|]); (split; [cbn; lia|]);
      intros before shown after H; cbn in H; split_trace H before.
    split; [|done]. do 6 (apply elem_of_cons; right).
    apply elem_of_cons. by left.
  - split; [cbn; lia|]. split; [cbn; lia|]. split; [cbn; lia|].
    intros before shown after H; cbn in H; split_trace H before.
Qed.

(** X11.  [except Exception] on the page does not stop everything either:
    when [kickoff] raises something that is not an instance of
    [Exception], the script ends with that exception, after the waiting
    notice and without any banner. *)
Theorem page_propagates_non_Exception (st : Streamlit) (engine : Engine)
    (w : World) (e : BaseException) (crew_after : Crew) :
  submitted_query st ≠ "" →
  button st button_label = true →
  kickoff engine (submitted_crew st) = (Raised e, crew_after) →
  is_Exception e = false →
  (streamlit_ui st engine w).1 = Raised e
  ∧ events_of (streamlit_ui st engine) w
    = ui_prelude ++ [info_ev "Running CrewAI Workflow... Please wait ⏳";
                     kickoff_ev (submitted_crew st)].
Proof.
  intros Hq Hb Hk He. rewrite ui_events. apply str_truthy_nonempty in Hq.
  split.
  - unfold submitted_crew, submitted_query in *. ui_unfold.
    rewrite Hb, Hq, Hk. cbn. by rewrite He.
  - unfold ui_calls, submit_guard. by rewrite Hb, Hq, Hk, He.
Qed.

Lemma page_propagates_non_Exception_witness :
  (streamlit_ui (typed "climate change" true)
     (failing_engine keyboard_interrupt) sample_world).1
  = Raised keyboard_interrupt.
Proof.
  apply (page_propagates_non_Exception (typed "climate change" true)
           (failing_engine keyboard_interrupt) sample_world keyboard_interrupt
           (kickoff (failing_engine keyboard_interrupt)
              (submitted_crew (typed "climate change" true))).2).
  - discriminate.
  - reflexivity.
  - reflexivity.
  - reflexivity.
Defined.

(** X12.  The success message comes before the results are read.  When
    [kickoff] returns but the crew is left without a first task,
    [crew.tasks[0]] raises IndexError inside the [try]: the page has
    already shown the success message and the analyst heading, then shows
    the error banner with "list index out of range"; the returned value
    is never shown, although [result] stays bound to it. *)
Theorem page_success_then_index_error (st : Streamlit) (engine : Engine)
    (w : World) (result : CrewOutput) (crew_after : Crew) :
  submitted_query st ≠ "" →
  button st button_label = true →
  kickoff engine (submitted_crew st) = (Returned result, crew_after) →
  tasks crew_after = [] →
  let evs := events_of (streamlit_ui st engine) w in
  evs = ui_prelude ++
        [info_ev "Running CrewAI Workflow... Please wait ⏳";
         kickoff_ev (submitted_crew st);
         success_ev "✅ Workflow completed successfully!";
         markdown_ev (md_str "### 📊 Data Analyst Output");
         error_ev "❌ Something went wrong: list index out of range"]
  ∧ result_sections evs = []
  ∧ ∃ globals, (streamlit_ui st engine w).1 = Returned globals
               ∧ g_result globals = Some result.
Proof.
  intros Hq Hb Hk Ht. cbn zeta. rewrite ui_events.
  apply str_truthy_nonempty in Hq.
  assert (ui_calls st engine = ui_prelude ++
        [info_ev "Running CrewAI Workflow... Please wait ⏳";
         kickoff_ev (submitted_crew st);
         success_ev "✅ Workflow completed successfully!";
         markdown_ev (md_str "### 📊 Data Analyst Output");
         error_ev "❌ Something went wrong: list index out of range"]) as ->.
  { unfold ui_calls, submit_guard. by rewrite Hb, Hq, Hk, Ht. }
  split; [done|]. split; [done|].
  unfold submitted_crew, submitted_query in *. ui_unfold.
  rewrite Hb, Hq, Hk. cbn. rewrite Ht. cbn. eexists. by split.
Qed.

Lemma page_success_then_index_error_witness :
  error_banners
    (events_of (streamlit_ui (typed "climate change" true)
                  (emptying_engine "Two books.")) sample_world)
  = ["❌ Something went wrong: list index out of range"].
Proof.
  rewrite (proj1 (page_success_then_index_error (typed "climate change" true)
                    (emptying_engine "Two books.") sample_world
                    {| crew_raw := "Two books." |}
                    (kickoff (emptying_engine "Two books.")
                       (submitted_crew (typed "climate change" true))).2
                    ltac:(discriminate) eq_refl eq_refl eq_refl)).
  reflexivity.
Defined.

(** * Further properties of the agents, the tasks and the start-up *)

Lemma length_append (s t : string) :
  String.length (s +:+ t) = String.length s + String.length t.
Proof.
  induction s as [|c s IH]; [done|].
  change (String c s +:+ t) with (String c (s +:+ t)). cbn. by rewrite IH.
Qed.

Lemma append_inj_r (s1 s2 t : string) : s1 +:+ t = s2 +:+ t → s1 = s2.
Proof.
  revert s2. induction s1 as [|c1 s1 IH]; intros [|c2 s2] H.
  - done.
  - apply (f_equal String.length) in H.
    change (String.length t = S (String.length (s2 +:+ t))) in H.
    rewrite length_append in H. lia.
  - apply (f_equal String.length) in H.
    change (S (String.length (s1 +:+ t)) = String.length t) in H.
    rewrite length_append in H. lia.
  - change (String c1 (s1 +:+ t) = String c2 (s2 +:+ t)) in H.
    injection H as -> H. by rewrite (IH s2 H).
Qed.

(** X13.  In the crew built for any query, every task is assigned to an
    agent of the crew, and the search tool is within reach of the
    recommendation task only: the recommender holds exactly that one
    tool, and the analyst, who runs the analysis task, holds none. *)
Theorem crew_tool_wiring (query : string) :
  let self := WorkshopAgentsAndTasks.__init__ query in
  let crew := WorkshopAgentsAndTasks.create_workshop_crew self in
  Forall (λ task, agent task ∈ agents crew) (tasks crew)
  ∧ (∀ task, task ∈ tasks crew →
       (tools (agent task) = Some [WorkshopAgentsAndTasks.weaviate_tool self]
        ∧ task = WorkshopAgentsAndTasks.create_resource_recommendation_task self)
       ∨ (tools (agent task) = None
          ∧ task = WorkshopAgentsAndTasks.create_data_analysis_task self))
  ∧ tool_name (WorkshopAgentsAndTasks.weaviate_tool self)
    = "Weaviate Book Search Tool".
Proof.
  cbn zeta. split; [|split; [|done]].
  - repeat constructor.
  - intros task H. cbn in H. in_events H; subst task; [by right | by left].
Qed.

(** X14.  The query goes into the crew as it was typed, and nothing of it
    is lost: two queries that give the same crew are the same query.  The
    recommender agent, on the other hand, is the same for every query. *)
Theorem crew_determines_query (query1 query2 : string) :
  (WorkshopAgentsAndTasks.create_workshop_crew
     (WorkshopAgentsAndTasks.__init__ query1)
   = WorkshopAgentsAndTasks.create_workshop_crew
       (WorkshopAgentsAndTasks.__init__ query2) →
   query1 = query2)
  ∧ WorkshopAgentsAndTasks.resource_recommender_agent
      (WorkshopAgentsAndTasks.__init__ query1)
    = WorkshopAgentsAndTasks.resource_recommender_agent
        (WorkshopAgentsAndTasks.__init__ query2).
Proof.
  split; [|done]. intros H.
  apply (f_equal (λ crew, goal <$> agents crew !! 0)) in H.
  change (Some ("Generate insights and trends about '" +:+ query1 +:+ "'.")
          = Some ("Generate insights and trends about '" +:+ query2 +:+ "'."))
    in H.
  injection H as H. apply String.app_inj in H. by apply append_inj_r in H.
Qed.

Lemma crew_determines_query_witness :
  "climate change" = "climate change".
Proof.
  apply (crew_determines_query "climate change" "climate change").
  reflexivity.
Defined.



